(** * npblink, examples/codon2x3: the toy model and its observed data

    A shallow embedding of [npdata.py], [npmodel.py] and [npmodelb.py].
    Python dictionaries are finite maps, numpy boolean arrays are lists of
    booleans, Python floats are the kernel's binary64 floats, and a raised
    exception is a constructor of a result type. *)

From Stdlib Require Import ZArith Uint63 PrimFloat.
From stdpp Require Import gmap strings list fin_maps.

Open Scope Z_scope.

(** 0.2 and 0.8 below stand for the binary64 values nearest to them. *)
#[local] Set Warnings "-inexact-float".

(** ** Python values, exceptions and results *)

Module Py.

(** The values a module-level name can be bound to, as far as the code
    here can tell them apart.  [PyObj] is an opaque object (an imported
    module, a function, a [__future__] feature) that compares unequal to
    every integer. *)
Inductive pyval : Type :=
  | PyNone
  | PyBool (b : bool)
  | PyInt (z : Z)
  | PyFloat (f : float)
  | PyStr (s : string)
  | PyObj (name : string).

Inductive exn : Type :=
  | NameError (name : string)
  | Exception (msg : string).

Inductive result (A : Type) : Type :=
  | Return (a : A)
  | Raise (e : exn).

Arguments Return {A} a.
Arguments Raise {A} e.

(** An integer as the nearest binary64 float, for |z| < 2^63 (the
    literals of the source are 0 to 4). *)
Definition float_of_Z (z : Z) : float :=
  if z <? 0 then PrimFloat.opp (PrimFloat.of_uint63 (Uint63.of_Z (- z)))
  else PrimFloat.of_uint63 (Uint63.of_Z z).

(** [v == k] for an integer literal [k]: numbers compare by value across
    [bool], [int] and [float]; anything else is unequal. *)
Definition eq_int (v : pyval) (k : Z) : bool :=
  match v with
  | PyInt z => z =? k
  | PyBool b => Z.b2z b =? k
  | PyFloat f => PrimFloat.eqb f (float_of_Z k)
  | PyNone | PyStr _ | PyObj _ => false
  end.

(** A dictionary display [{k1 : v1, k2 : v2, ...}]: the entries are stored
    from left to right, a later one replacing an earlier one with the same
    key. *)
Definition dict `{Countable K} {V : Type} (items : list (K * V)) : gmap K V :=
  foldl (λ m kv, <[kv.1 := kv.2]> m) ∅ items.

(** [np.array(l, dtype=bool)] on a list of integer literals. *)
Definition np_array_bool (l : list Z) : list bool :=
  map (λ z, negb (z =? 0)) l.

End Py.

Import Py.

(** ** npdata.py *)

Module npdata.

(** [primary_data]: tree node to allowed primary states. *)
Abbreviation primary_map := (gmap string (list bool)).
(** [tol_data]: tolerance class to (tree node to allowed tolerance states). *)
Abbreviation tol_map := (gmap Z (gmap string (list bool))).

Abbreviation arr := np_array_bool.

(** The [if]/[elif]/[else] chain of [get_data], as a function of the value
    the name [data_level] evaluates to. *)
Definition get_data_branches (data_level : pyval) : result (primary_map * tol_map) :=
  if eq_int data_level 0 then
    let primary_data := dict [
      ("N0", arr [1; 1; 1; 1; 1; 1]);
      ("N1", arr [1; 1; 1; 1; 1; 1]);
      ("N2", arr [1; 1; 1; 1; 1; 1]);
      ("N3", arr [1; 1; 1; 1; 1; 1]);
      ("N4", arr [1; 1; 1; 1; 1; 1]);
      ("N5", arr [1; 1; 1; 1; 1; 1]) ] in
    let tol_data := dict [
      (0, dict [
        ("N0", arr [1; 1]);
        ("N1", arr [1; 1]);
        ("N2", arr [1; 1]);
        ("N3", arr [1; 1]);
        ("N4", arr [1; 1]);
        ("N5", arr [1; 1]) ]);
      (1, dict [
        ("N0", arr [1; 1]);
        ("N1", arr [1; 1]);
        ("N2", arr [1; 1]);
        ("N3", arr [1; 1]);
        ("N4", arr [1; 1]);
        ("N5", arr [1; 1]) ]);
      (2, dict [
        ("N0", arr [1; 1]);
        ("N1", arr [1; 1]);
        ("N2", arr [1; 1]);
        ("N3", arr [1; 1]);
        ("N4", arr [1; 1]);
        ("N5", arr [1; 1]) ]) ] in
    Return (primary_data, tol_data)
  else if eq_int data_level 1 then
    let primary_data := dict [
      ("N0", arr [1; 0; 0; 0; 0; 0]);
      ("N1", arr [1; 1; 1; 1; 1; 1]);
      ("N2", arr [1; 1; 1; 1; 1; 1]);
      ("N3", arr [0; 0; 0; 0; 1; 0]);
      ("N4", arr [0; 0; 0; 0; 0; 1]);
      ("N5", arr [0; 1; 0; 0; 0; 0]) ] in
    let tol_data := dict [
      (0, dict [
        ("N0", arr [0; 1]);
        ("N1", arr [1; 1]);
        ("N2", arr [1; 1]);
        ("N3", arr [1; 1]);
        ("N4", arr [1; 1]);
        ("N5", arr [0; 1]) ]);
      (1, dict [
        ("N0", arr [1; 1]);
        ("N1", arr [1; 1]);
        ("N2", arr [1; 1]);
        ("N3", arr [1; 1]);
        ("N4", arr [1; 1]);
        ("N5", arr [1; 1]) ]);
      (2, dict [
        ("N0", arr [1; 1]);
        ("N1", arr [1; 1]);
        ("N2", arr [1; 1]);
        ("N3", arr [0; 1]);
        ("N4", arr [0; 1]);
        ("N5", arr [1; 1]) ]) ] in
    Return (primary_data, tol_data)
  else if eq_int data_level 2 then
    let primary_data := dict [
      ("N0", arr [1; 0; 0; 0; 0; 0]);
      ("N1", arr [1; 1; 1; 1; 1; 1]);
      ("N2", arr [1; 1; 1; 1; 1; 1]);
      ("N3", arr [0; 0; 0; 0; 1; 0]);
      ("N4", arr [0; 0; 0; 0; 0; 1]);
      ("N5", arr [0; 1; 0; 0; 0; 0]) ] in
    let tol_data := dict [
      (0, dict [
        ("N0", arr [0; 1]);
        ("N1", arr [1; 1]);
        ("N2", arr [1; 1]);
        ("N3", arr [1; 1]);
        ("N4", arr [1; 1]);
        ("N5", arr [0; 1]) ]);
      (1, dict [
        ("N0", arr [1; 0]);
        ("N1", arr [1; 1]);
        ("N2", arr [1; 1]);
        ("N3", arr [1; 1]);
        ("N4", arr [1; 1]);
        ("N5", arr [1; 1]) ]);
      (2, dict [
        ("N0", arr [0; 1]);
        ("N1", arr [1; 1]);
        ("N2", arr [1; 1]);
        ("N3", arr [0; 1]);
        ("N4", arr [0; 1]);
        ("N5", arr [1; 1]) ]) ] in
    Return (primary_data, tol_data)
  else if eq_int data_level 3 then
    let primary_data := dict [
      ("N0", arr [1; 0; 0; 0; 0; 0]);
      ("N1", arr [1; 1; 1; 1; 1; 1]);
      ("N2", arr [1; 1; 1; 1; 1; 1]);
      ("N3", arr [0; 0; 0; 0; 1; 0]);
      ("N4", arr [0; 0; 0; 0; 0; 1]);
      ("N5", arr [0; 1; 0; 0; 0; 0]) ] in
    let tol_data := dict [
      (0, dict [
        ("N0", arr [0; 1]);
        ("N1", arr [1; 1]);
        ("N2", arr [1; 1]);
        ("N3", arr [0; 1]);
        ("N4", arr [0; 1]);
        ("N5", arr [0; 1]) ]);
      (1, dict [
        ("N0", arr [1; 0]);
        ("N1", arr [1; 1]);
        ("N2", arr [1; 1]);
        ("N3", arr [0; 1]);
        ("N4", arr [0; 1]);
        ("N5", arr [0; 1]) ]);
      (2, dict [
        ("N0", arr [0; 1]);
        ("N1", arr [1; 1]);
        ("N2", arr [1; 1]);
        ("N3", arr [0; 1]);
        ("N4", arr [0; 1]);
        ("N5", arr [0; 1]) ]) ] in
    Return (primary_data, tol_data)
  else
    Raise (Exception "invalid data level").

(** [get_data(level=0)].  The body never mentions its parameter [level]:
    every test of the chain reads the name [data_level], which the function
    does not assign, so it is looked up in the module's global namespace
    [globals] (no builtin has that name) and the call raises [NameError]
    when it is unbound there. *)
Definition get_data (globals : gmap string pyval) (level : pyval)
  : result (primary_map * tol_map) :=
  match globals !! "data_level" with
  | None => Raise (NameError "data_level")
  | Some data_level => get_data_branches data_level
  end.

(** A call without argument takes the default [level=0]. *)
Definition get_data_default (globals : gmap string pyval) :=
  get_data globals (PyInt 0).

(** The global namespace of the module once its top level has run: the
    three [__future__] features, [np] and [get_data] itself. *)
Definition module_globals : gmap string pyval :=
  dict [
    ("division", PyObj "_Feature");
    ("print_function", PyObj "_Feature");
    ("absolute_import", PyObj "_Feature");
    ("np", PyObj "module numpy");
    ("get_data", PyObj "function get_data") ].

(** The tree nodes and tolerance classes the data are keyed by. *)
Definition node_names : list string := ["N0"; "N1"; "N2"; "N3"; "N4"; "N5"].
Definition tol_classes : list Z := [0; 1; 2].

(** The data set written down for level [L]: what the chain produces when
    [data_level] is the integer [L]. *)
Definition level_data (L : Z) : result (primary_map * tol_map) :=
  get_data_branches (PyInt L).

Definition primary_at (L : Z) (node : string) : option (list bool) :=
  match level_data L with
  | Return (primary_data, _) => primary_data !! node
  | Raise _ => None
  end.

Definition tol_at (L : Z) (cls : Z) (node : string) : option (list bool) :=
  match level_data L with
  | Return (_, tol_data) => tol_data !! cls ≫= (λ d, d !! node)
  | Raise _ => None
  end.

(** [allowed(L, node, state)] for the primary process and for a tolerance
    class; [None] when the key or the index does not exist. *)
Definition allowed_primary (L : Z) (node : string) (i : nat) : option bool :=
  primary_at L node ≫= (λ v, v !! i).

Definition allowed_tol (L : Z) (cls : Z) (node : string) (i : nat) : option bool :=
  tol_at L cls node ≫= (λ v, v !! i).

End npdata.

(** ** What the two model modules share: numbers, arrays, graphs *)

Module Num.

(** A numeric literal of the source: a Python [int] or a [float]. *)
Inductive num : Type :=
  | Int (z : Z)
  | Float (f : float).

(** Conversion by [dtype=float]. *)
Definition to_float (x : num) : float :=
  match x with
  | Int z => float_of_Z z
  | Float f => f
  end.

(** [0 <= x], on an [int] exactly and on a [float] as IEEE 754 orders it. *)
Definition nonneg (x : num) : bool :=
  match x with
  | Int z => 0 <=? z
  | Float f => PrimFloat.leb 0 f
  end.

(** [np.array(rows, dtype=float)] on a list of rows, and on a flat list. *)
Definition np_array_float (l : list num) : list float := map to_float l.
Definition np_matrix_float (rows : list (list num)) : list (list float) :=
  map np_array_float rows.

(** [v.sum()], accumulated from the left. *)
Definition np_sum (v : list float) : float :=
  foldl PrimFloat.add 0%float v.

(** Modelled from the spec: [normalized] is imported from [npmctree.util],
    which is not part of these sources; the specification describes its
    result as the argument "normalized to sum to 1", that is every entry
    divided by the sum of the entries. *)
Definition normalized (v : list float) : list float :=
  let total := np_sum v in
  map (λ x, PrimFloat.div x total) v.

End Num.

Module Graph.

(** A [networkx.DiGraph] as far as the models use it: a set of nodes and a
    set of directed edges (parent, child). *)
Record DiGraph : Type := mkDiGraph {
  nodes : gset string;
  edges : gset (string * string)
}.

Definition empty : DiGraph := mkDiGraph ∅ ∅.

(** [G.add_edge(u, v)] adds both end points to the nodes. *)
Definition add_edge (G : DiGraph) (e : string * string) : DiGraph :=
  mkDiGraph (nodes G ∪ {[e.1; e.2]}) (edges G ∪ {[e]}).

Definition add_edges_from (G : DiGraph) (l : list (string * string)) : DiGraph :=
  foldl add_edge G l.

(** [G.in_degree(n)]: the number of edges that end in [n]. *)
Definition in_degree (G : DiGraph) (n : string) : nat :=
  size (filter (λ e, e.2 = n) (edges G)).

(** A directed walk of at least one edge. *)
Inductive walk (G : DiGraph) : string → string → Prop :=
  | walk_edge u v : (u, v) ∈ edges G → walk G u v
  | walk_step u v w : (u, v) ∈ edges G → walk G v w → walk G u w.

End Graph.

Import Num Graph.

(** ** npmodel.py (model A) *)

Module npmodel.

Definition get_rate_on : float := 1.0%float.

Definition get_rate_off : float := 1.0%float.

Definition get_primary_distn : list float :=
  let nprimary := 6%nat in
  normalized (replicate nprimary 1%float).

Definition get_blink_distn : list float :=
  normalized (np_array_float [Float get_rate_off; Float get_rate_on]).

Definition get_Q_primary : list (list float) :=
  np_matrix_float [
    [Int 0; Int 1; Int 1; Int 0; Int 0; Int 0];
    [Int 1; Int 0; Int 0; Int 1; Int 0; Int 0];
    [Int 1; Int 0; Int 0; Int 1; Int 1; Int 0];
    [Int 0; Int 1; Int 1; Int 0; Int 0; Int 1];
    [Int 0; Int 0; Int 1; Int 0; Int 0; Int 1];
    [Int 0; Int 0; Int 0; Int 1; Int 1; Int 0] ].

Definition get_primary_to_tol : list Z := [0; 0; 1; 1; 2; 2].

Definition get_T_and_root : DiGraph * string :=
  let T := Graph.empty in
  let T := add_edges_from T [
    ("N1", "N0");
    ("N1", "N2");
    ("N1", "N5");
    ("N2", "N3");
    ("N2", "N4") ] in
  (T, "N1").

Definition get_edge_to_blen : gmap (string * string) num :=
  dict [
    (("N1", "N0"), Float 0.5);
    (("N1", "N2"), Float 0.5);
    (("N1", "N5"), Float 0.5);
    (("N2", "N3"), Float 0.5);
    (("N2", "N4"), Float 0.5) ].

End npmodel.

(** ** npmodelb.py (model B) *)

Module npmodelb.

Definition get_rate_on : float := 2.0%float.

Definition get_rate_off : float := 0.5%float.

Definition get_primary_distn : list float :=
  let weights := np_array_float [Int 1; Int 4; Int 1; Int 1; Int 1; Int 1] in
  normalized weights.

Definition get_blink_distn : list float :=
  normalized (np_array_float [Float get_rate_off; Float get_rate_on]).

Definition get_Q_primary : list (list float) :=
  let f := Float 2.0 in
  let s := Float 0.5 in
  np_matrix_float [
    [Int 0; f;     Int 1; Int 0; Int 0; Int 0];
    [s;     Int 0; Int 0; Int 1; Int 0; Int 0];
    [s;     Int 0; Int 0; Int 1; Int 1; Int 0];
    [Int 0; f;     Int 1; Int 0; Int 0; Int 1];
    [Int 0; Int 0; Int 1; Int 0; Int 0; Int 0];
    [Int 0; Int 0; Int 0; Int 1; Int 0; Int 0] ].

Definition get_primary_to_tol : list Z := [0; 0; 1; 1; 2; 2].

Definition get_T_and_root : DiGraph * string :=
  let T := Graph.empty in
  let T := add_edges_from T [
    ("N1", "N0");
    ("N1", "N2");
    ("N1", "N5");
    ("N2", "N3");
    ("N2", "N4") ] in
  (T, "N1").

Definition get_edge_to_blen : gmap (string * string) num :=
  let blen := 0.5%float in
  dict [
    (("N1", "N0"), Int 0);
    (("N1", "N2"), Int 0);
    (("N1", "N5"), Float blen);
    (("N2", "N3"), Float (2.0 * blen));
    (("N2", "N4"), Float (0.5 * blen)) ].

End npmodelb.

(** ** The two variants side by side *)

Module Models.

Inductive variant : Type := ModelA | ModelB.

Definition rate_on (m : variant) : float :=
  match m with ModelA => npmodel.get_rate_on | ModelB => npmodelb.get_rate_on end.

Definition rate_off (m : variant) : float :=
  match m with ModelA => npmodel.get_rate_off | ModelB => npmodelb.get_rate_off end.

Definition blink_distn (m : variant) : list float :=
  match m with ModelA => npmodel.get_blink_distn | ModelB => npmodelb.get_blink_distn end.

Definition Q_primary (m : variant) : list (list float) :=
  match m with ModelA => npmodel.get_Q_primary | ModelB => npmodelb.get_Q_primary end.

Definition T_and_root (m : variant) : DiGraph * string :=
  match m with ModelA => npmodel.get_T_and_root | ModelB => npmodelb.get_T_and_root end.

Definition edge_to_blen (m : variant) : gmap (string * string) num :=
  match m with ModelA => npmodel.get_edge_to_blen | ModelB => npmodelb.get_edge_to_blen end.

(** [Q[i][j]], [None] out of range. *)
Definition entry (Q : list (list float)) (i j : nat) : option float :=
  Q !! i ≫= (λ row, row !! j).

End Models.

Import Models.

(** A vector [v'] narrows [v] when it has the same length and allows
    nothing that [v] excludes: the cross-level consistency check. *)
Fixpoint narrows (v v' : list bool) : bool :=
  match v, v' with
  | [], [] => true
  | a :: v, a' :: v' => implb a' a && narrows v v'
  | _, _ => false
  end.

(** The distance of a node from the root [N1]. *)
Definition depth (n : string) : nat :=
  if decide (n = "N1") then 0
  else if decide (n ∈ ["N0"; "N2"; "N5"]) then 1
  else 2.

(** ** The evidence against the model *)

Module Evidence.

Definition primary_to_tol (m : variant) : list Z :=
  match m with
  | ModelA => npmodel.get_primary_to_tol
  | ModelB => npmodelb.get_primary_to_tol
  end.

Definition primary_distn (m : variant) : list float :=
  match m with
  | ModelA => npmodel.get_primary_distn
  | ModelB => npmodelb.get_primary_distn
  end.

(** The two components of the pair a level's branch returns. *)
Definition primary_of (L : Z) : option npdata.primary_map :=
  match npdata.level_data L with
  | Return (primary_data, _) => Some primary_data
  | Raise _ => None
  end.

Definition tol_of (L : Z) : option npdata.tol_map :=
  match npdata.level_data L with
  | Return (_, tol_data) => Some tol_data
  | Raise _ => None
  end.

(** [G.out_degree(n)]: the number of edges that start in [n]. *)
Definition out_degree (G : DiGraph) (n : string) : nat :=
  size (filter (λ e, e.1 = n) (edges G)).

(** The leaf nodes and the internal nodes of the tree graph, as the
    comments of [npdata.py] call them. *)
Definition is_leaf (G : DiGraph) (n : string) : Prop :=
  n ∈ nodes G ∧ out_degree G n = 0%nat.

Definition is_internal (G : DiGraph) (n : string) : Prop :=
  n ∈ nodes G ∧ out_degree G n ≠ 0%nat.

(** Primary state [s] is allowed at [node] and the tolerance class it
    belongs to may be on (state 1) there. *)
Definition tolerated_state (m : variant) (L : Z) (node : string) (s : nat) : bool :=
  match npdata.allowed_primary L node s, primary_to_tol m !! s with
  | Some true, Some c =>
      match npdata.allowed_tol L c node 1 with
      | Some true => true
      | _ => false
      end
  | _, _ => false
  end.

(** [0 < x] on a float. *)
Definition positive (x : float) : bool := PrimFloat.ltb 0 x.

End Evidence.

Import Evidence.

(** * Properties *)

(** ** Helper lemmas *)

Lemma node_cases (node : string) :
  node ∈ npdata.node_names →
  node = "N0" ∨ node = "N1" ∨ node = "N2" ∨ node = "N3" ∨ node = "N4" ∨ node = "N5".
Proof.
  unfold npdata.node_names. rewrite !elem_of_cons, elem_of_nil. tauto.
Qed.

Lemma class_cases (cls : Z) :
  cls ∈ npdata.tol_classes → cls = 0 ∨ cls = 1 ∨ cls = 2.
Proof.
  unfold npdata.tol_classes. rewrite !elem_of_cons, elem_of_nil. tauto.
Qed.

Lemma narrows_sound (v v' : list bool) :
  narrows v v' = true →
  ∀ i : nat, v !! i = Some false → v' !! i = Some false.
Proof.
  revert v'. induction v as [|a v IH]; intros [|a' v'] Hn i Hi; simpl in *;
    try discriminate.
  apply andb_true_iff in Hn as [Hab Hrest].
  destruct i as [|i]; simpl in *.
  - injection Hi as ->. destruct a'; [discriminate | reflexivity].
  - eapply IH; eassumption.
Qed.

Lemma narrows_length (v v' : list bool) :
  narrows v v' = true → length v = length v'.
Proof.
  revert v'. induction v as [|a v IH]; intros [|a' v'] Hn; simpl in *;
    try discriminate; [reflexivity |].
  apply andb_true_iff in Hn as [_ Hrest]. f_equal. auto.
Qed.

Lemma existsb_lookup (v : list bool) :
  existsb id v = true → ∃ i : nat, v !! i = Some true.
Proof.
  induction v as [|a v IH]; simpl; [discriminate |].
  destruct a; simpl.
  - intros _. exists 0%nat. reflexivity.
  - intros Hv. destruct (IH Hv) as [i Hi]. exists (S i). exact Hi.
Qed.

(** Case analysis on a node name or a tolerance class of the data. *)
Ltac each_node H :=
  apply node_cases in H;
  destruct H as [-> | [-> | [-> | [-> | [-> | ->]]]]].

Ltac each_class H :=
  apply class_cases in H;
  destruct H as [-> | [-> | ->]].

(** Closes a conjunction of closed equations by evaluation, from left to
    right, so that an existential variable is known before it is used. *)
Ltac by_evaluation :=
  lazymatch goal with
  | |- _ ∧ _ => split; [by_evaluation | by_evaluation]
  | |- _ => vm_compute; reflexivity
  end.

(** Runs the [if]/[elif] chain on a literal level and stops at the
    dictionary displays of the selected branch. *)
Ltac reduce_level :=
  cbv beta iota zeta delta
    [npdata.level_data npdata.get_data_branches eq_int Z.eqb Pos.eqb].

(** Decides a closed equation between sets or maps by evaluating the
    decision procedure, without building their normal forms. *)
Ltac by_decision :=
  apply (bool_decide_unpack _); vm_compute; exact I.

(** ** npdata: the four data sets *)

Section Data.

Import npdata.

(** Each of the four levels has a data set, keyed by exactly the six
    nodes and the three tolerance classes. *)
Lemma level_data_defined (L : Z) :
  0 ≤ L ≤ 3 →
  ∃ primary_data tol_data,
    level_data L = Return (primary_data, tol_data) ∧
    dom primary_data = list_to_set node_names ∧
    dom tol_data = list_to_set tol_classes ∧
    ∀ cls, cls ∈ tol_classes →
      ∃ d, tol_data !! cls = Some d ∧ dom d = list_to_set node_names.
Proof.
  intros HL.
  assert (L = 0 ∨ L = 1 ∨ L = 2 ∨ L = 3) as [-> | [-> | [-> | ->]]] by lia;
    (eexists; eexists; split; [reduce_level; reflexivity |];
     split; [by_decision |];
     split; [by_decision |];
     intros cls Hcls; each_class Hcls;
     (eexists; split; [reflexivity | by_decision])).
Qed.

(** Primary vectors have six entries and tolerance vectors two. *)
Lemma data_shape (L : Z) (node : string) :
  0 ≤ L ≤ 3 → node ∈ node_names →
  (∃ v, primary_at L node = Some v ∧ length v = 6%nat) ∧
  (∀ cls, cls ∈ tol_classes → ∃ v, tol_at L cls node = Some v ∧ length v = 2%nat).
Proof.
  intros HL Hnode.
  assert (L = 0 ∨ L = 1 ∨ L = 2 ∨ L = 3) as [-> | [-> | [-> | ->]]] by lia;
    each_node Hnode;
    (split;
     [ eexists; by_evaluation
     | intros cls Hcls; each_class Hcls; eexists; by_evaluation ]).
Qed.

(** With [data_level] bound to 1 in the global namespace the level-1
    tables are returned whatever the argument is; these are the vectors of
    the level-1 and level-3 tables. *)
Lemma level_tables_scenario :
  allowed_primary 1 "N0" <$> seq 0 6
    = Some <$> [true; false; false; false; false; false] ∧
  tol_at 1 0 "N0" = Some [false; true] ∧
  tol_at 1 0 "N3" = Some [true; true] ∧
  tol_at 3 0 "N3" = Some [false; true].
Proof. by_evaluation. Qed.

Lemma get_data_follows_data_level (globals : gmap string pyval) (L : Z) (level : pyval) :
  get_data (<["data_level" := PyInt L]> globals) level = level_data L.
Proof. unfold get_data. rewrite lookup_insert_eq. reflexivity. Qed.

(** C1. As the docstring has it, [get_data(level)] should return the data
    of [level] for 0..3 and fail for any other level.  The code: in the
    module's own namespace every call, whatever the argument, raises
    [NameError] for the unbound name [data_level]. *)
Theorem get_data_raises_NameError (level : pyval) :
  get_data module_globals level = Raise (NameError "data_level").
Proof. vm_compute. reflexivity. Qed.

(** C3. The calls [get_data(1)] and [get_data(3)] of the scenario do not
    yield the level-1 and level-3 vectors: both raise [NameError], and so
    does the call with the default argument. *)
Theorem get_data_scenario_calls_raise :
  get_data module_globals (PyInt 1) = Raise (NameError "data_level") ∧
  get_data module_globals (PyInt 3) = Raise (NameError "data_level") ∧
  get_data_default module_globals = Raise (NameError "data_level").
Proof. by_evaluation. Qed.

(** C9. The outcome of [get_data] (returned pair or raised exception)
    does not depend on its argument: for every global namespace and every
    two arguments the two calls have the same outcome. *)
Theorem get_data_ignores_level (globals : gmap string pyval) (a b : pyval) :
  get_data globals a = get_data globals b.
Proof. unfold get_data. destruct (globals !! "data_level"); reflexivity. Qed.

(** C2. Filtration: for L in 0..2, every node and every tolerance class,
    a state the level-L data set marks disallowed is marked disallowed by
    the level-(L+1) data set too, in [primary_data] and in [tol_data]. *)
Theorem filtration_monotone (L : Z) (node : string) :
  0 ≤ L ≤ 2 → node ∈ node_names →
  (∀ i : nat,
     allowed_primary L node i = Some false →
     allowed_primary (L + 1) node i = Some false) ∧
  (∀ (cls : Z) (i : nat),
     cls ∈ tol_classes →
     allowed_tol L cls node i = Some false →
     allowed_tol (L + 1) cls node i = Some false).
Proof.
  intros HL Hnode.
  assert (∃ v v', primary_at L node = Some v ∧
                  primary_at (L + 1) node = Some v' ∧ narrows v v' = true) as HP.
  { assert (L = 0 ∨ L = 1 ∨ L = 2) as [-> | [-> | ->]] by lia;
      each_node Hnode; do 2 eexists; by_evaluation. }
  assert (∀ cls, cls ∈ tol_classes →
          ∃ v v', tol_at L cls node = Some v ∧
                  tol_at (L + 1) cls node = Some v' ∧ narrows v v' = true) as HT.
  { intros cls Hcls.
    assert (L = 0 ∨ L = 1 ∨ L = 2) as [-> | [-> | ->]] by lia;
      each_node Hnode; each_class Hcls;
      do 2 eexists; by_evaluation. }
  split.
  - intros i. unfold allowed_primary.
    destruct HP as (v & v' & -> & -> & Hn). simpl.
    apply narrows_sound, Hn.
  - intros cls i Hcls. unfold allowed_tol.
    destruct (HT cls Hcls) as (v & v' & -> & -> & Hn). simpl.
    apply narrows_sound, Hn.
Qed.

Lemma filtration_monotone_witness :
  0 ≤ 2 ≤ 2 ∧ "N0" ∈ node_names ∧ 1 ∈ tol_classes ∧
  allowed_tol 2 1 "N0" 1 = Some false ∧
  allowed_tol (2 + 1) 1 "N0" 1 = Some false.
Proof.
  assert (0 ≤ 2 ≤ 2) as HL by lia.
  assert ("N0" ∈ node_names) as Hnode
    by (unfold node_names; apply list_elem_of_here).
  assert (1 ∈ tol_classes) as Hcls
    by (unfold tol_classes; apply list_elem_of_further, list_elem_of_here).
  assert (allowed_tol 2 1 "N0" 1 = Some false) as Hoff
    by (vm_compute; reflexivity).
  refine (conj HL (conj Hnode (conj Hcls (conj Hoff _)))).
  exact (proj2 (filtration_monotone 2 "N0" HL Hnode) 1 1%nat Hcls Hoff).
Defined.

(** C8. At every level 0..3 and every node the primary vector has a
    [True] entry, and so has the tolerance vector of every class. *)
Theorem every_vector_allows_a_state (L : Z) (node : string) :
  0 ≤ L ≤ 3 → node ∈ node_names →
  (∃ i : nat, allowed_primary L node i = Some true) ∧
  (∀ cls : Z, cls ∈ tol_classes →
     ∃ i : nat, allowed_tol L cls node i = Some true).
Proof.
  intros HL Hnode.
  destruct (data_shape L node HL Hnode) as [(v & Hv & _) HT].
  split.
  - unfold allowed_primary. rewrite Hv. simpl. apply existsb_lookup.
    assert (L = 0 ∨ L = 1 ∨ L = 2 ∨ L = 3) as [-> | [-> | [-> | ->]]] by lia;
      each_node Hnode; vm_compute in Hv; injection Hv as <-; reflexivity.
  - intros cls Hcls. destruct (HT cls Hcls) as (w & Hw & _).
    unfold allowed_tol. rewrite Hw. simpl. apply existsb_lookup.
    assert (L = 0 ∨ L = 1 ∨ L = 2 ∨ L = 3) as [-> | [-> | [-> | ->]]] by lia;
      each_node Hnode; each_class Hcls;
      vm_compute in Hw; injection Hw as <-; reflexivity.
Qed.

Lemma every_vector_allows_a_state_witness :
  0 ≤ 3 ≤ 3 ∧ "N3" ∈ node_names ∧ 1 ∈ tol_classes ∧
  (∃ i : nat, allowed_primary 3 "N3" i = Some true) ∧
  (∃ i : nat, allowed_tol 3 1 "N3" i = Some true).
Proof.
  assert (0 ≤ 3 ≤ 3) as HL by lia.
  assert ("N3" ∈ node_names) as Hnode
    by (unfold node_names; do 3 apply list_elem_of_further; apply list_elem_of_here).
  assert (1 ∈ tol_classes) as Hcls
    by (unfold tol_classes; apply list_elem_of_further, list_elem_of_here).
  refine (conj HL (conj Hnode (conj Hcls _))).
  exact (conj (proj1 (every_vector_allows_a_state 3 "N3" HL Hnode))
              (proj2 (every_vector_allows_a_state 3 "N3" HL Hnode) 1 Hcls)).
Defined.

(** C10. Levels 1, 2 and 3 have one and the same [primary_data]; their
    [tol_data] are pairwise different, so levels 2 and 3 differ from
    level 1 in [tol_data] only. *)
Theorem primary_data_shared_by_levels_1_2_3 :
  ∃ primary_data tol1 tol2 tol3,
    level_data 1 = Return (primary_data, tol1) ∧
    level_data 2 = Return (primary_data, tol2) ∧
    level_data 3 = Return (primary_data, tol3) ∧
    tol1 ≠ tol2 ∧ tol1 ≠ tol3 ∧ tol2 ≠ tol3.
Proof.
  do 4 eexists.
  split; [reduce_level; reflexivity |].
  split; [reduce_level; reflexivity |].
  split; [reduce_level; reflexivity |].
  repeat split; intros Heq.
  - apply (f_equal (λ t : tol_map, t !! 1 ≫= (λ d, d !! "N0"))) in Heq.
    vm_compute in Heq. discriminate.
  - apply (f_equal (λ t : tol_map, t !! 1 ≫= (λ d, d !! "N0"))) in Heq.
    vm_compute in Heq. discriminate.
  - apply (f_equal (λ t : tol_map, t !! 0 ≫= (λ d, d !! "N3"))) in Heq.
    vm_compute in Heq. discriminate.
Qed.

End Data.

(** An integer outside 0..3 in [data_level] reaches the [else] branch. *)
Lemma level_data_invalid (L : Z) :
  ¬ (0 ≤ L ≤ 3) →
  npdata.level_data L = Raise (Exception "invalid data level").
Proof.
  intros HL. unfold npdata.level_data, npdata.get_data_branches, eq_int.
  destruct (Z.eqb_spec L 0); [lia |].
  destruct (Z.eqb_spec L 1); [lia |].
  destruct (Z.eqb_spec L 2); [lia |].
  destruct (Z.eqb_spec L 3); [lia |].
  reflexivity.
Qed.

(** ** npmodel, npmodelb: the parameters of the two variants *)

Section Parameters.

(** The edges and nodes a run of [add_edges_from] leaves behind. *)
Lemma edges_add_edges_from (l : list (string * string)) (G : DiGraph) :
  edges (add_edges_from G l) = edges G ∪ list_to_set l.
Proof.
  unfold add_edges_from. revert G.
  induction l as [|e l IH]; intros G.
  - rewrite list_to_set_nil, (right_id_L ∅ (∪)). reflexivity.
  - rewrite list_to_set_cons, (assoc_L (∪)). apply (IH (add_edge G e)).
Qed.

Lemma T_edges (m : variant) (u v : string) :
  (u, v) ∈ edges (T_and_root m).1 ↔
  (u, v) ∈ [("N1", "N0"); ("N1", "N2"); ("N1", "N5"); ("N2", "N3"); ("N2", "N4")].
Proof.
  destruct m;
    unfold T_and_root, npmodel.get_T_and_root, npmodelb.get_T_and_root;
    cbv zeta; cbn [fst];
    rewrite edges_add_edges_from, elem_of_union, elem_of_list_to_set;
    unfold Graph.empty; cbn [edges]; rewrite elem_of_empty; tauto.
Qed.

(** Every edge leads one step away from the root. *)
Lemma edge_depth (m : variant) (u v : string) :
  (u, v) ∈ edges (T_and_root m).1 → depth v = S (depth u).
Proof.
  rewrite T_edges, !elem_of_cons, elem_of_nil.
  intros [H | [H | [H | [H | [H | []]]]]]; injection H as -> ->; reflexivity.
Qed.

Lemma walk_depth (m : variant) (u v : string) :
  walk (T_and_root m).1 u v → (depth u < depth v)%nat.
Proof.
  induction 1 as [u v He | u v w He _ IH].
  - apply edge_depth in He. lia.
  - apply edge_depth in He. lia.
Qed.

(** C4. In both variants the 6x6 matrix of [get_Q_primary()] is zero on
    the diagonal and non-negative off the diagonal. *)
Theorem Q_primary_zero_diagonal_nonneg (m : variant) (i j : nat) :
  (i < 6)%nat → (j < 6)%nat →
  ∃ x : float,
    entry (Q_primary m) i j = Some x ∧
    (i = j → x = 0%float) ∧
    (i ≠ j → PrimFloat.leb 0 x = true).
Proof.
  intros Hi Hj.
  assert (i = 0 ∨ i = 1 ∨ i = 2 ∨ i = 3 ∨ i = 4 ∨ i = 5)%nat
    as [-> | [-> | [-> | [-> | [-> | ->]]]]] by lia;
    assert (j = 0 ∨ j = 1 ∨ j = 2 ∨ j = 3 ∨ j = 4 ∨ j = 5)%nat
      as [-> | [-> | [-> | [-> | [-> | ->]]]]] by lia;
    destruct m;
    (eexists; split; [vm_compute; reflexivity |];
     split; [intros ? | intros ?]; solve [reflexivity | congruence]).
Qed.

Lemma Q_primary_zero_diagonal_nonneg_witness :
  (0 < 6)%nat ∧ (1 < 6)%nat ∧
  ∃ x : float, entry (Q_primary ModelB) 0 1 = Some x ∧
     (0%nat = 1%nat → x = 0%float) ∧
     (0%nat ≠ 1%nat → PrimFloat.leb 0 x = true).
Proof.
  assert (0 < 6)%nat as Hi by lia.
  assert (1 < 6)%nat as Hj by lia.
  split; [exact Hi |]. split; [exact Hj |].
  exact (Q_primary_zero_diagonal_nonneg ModelB 0 1 Hi Hj).
Defined.

(** The matrices are square of size six. *)
Lemma Q_primary_shape (m : variant) :
  length (Q_primary m) = 6%nat ∧ Forall (λ row, length row = 6%nat) (Q_primary m).
Proof. destruct m; split; try reflexivity; repeat constructor. Qed.

(** C5. spec-modelled ([normalized]).  [get_blink_distn()] is
    [(rate_off, rate_on)] normalized: [0.2, 0.8] for model B with rates
    2.0 (on) and 0.5 (off), [0.5, 0.5] for model A with both rates 1.0,
    and the entries sum to 1 in both. *)
Theorem blink_distn_normalized :
  (∀ m, blink_distn m = normalized [rate_off m; rate_on m]) ∧
  (rate_on ModelB = 2.0%float ∧ rate_off ModelB = 0.5%float ∧
   blink_distn ModelB = [0.2; 0.8]%float) ∧
  (rate_on ModelA = 1.0%float ∧ rate_off ModelA = 1.0%float ∧
   blink_distn ModelA = [0.5; 0.5]%float) ∧
  (∀ m, np_sum (blink_distn m) = 1%float).
Proof.
  split; [intros []; reflexivity |].
  split; [repeat split; vm_compute; reflexivity |].
  split; [repeat split; vm_compute; reflexivity |].
  intros []; vm_compute; reflexivity.
Qed.

(** C6. In both variants the graph of [get_T_and_root()] is a rooted
    out-tree on N0..N5: the returned root N1 has no incoming edge, every
    other node has exactly one, and no walk returns to its start. *)
Theorem T_is_rooted_out_tree (m : variant) :
  nodes (T_and_root m).1 = list_to_set npdata.node_names ∧
  (T_and_root m).2 = "N1" ∧
  (∀ n, n ∈ nodes (T_and_root m).1 →
     (in_degree (T_and_root m).1 n = 0%nat ↔ n = (T_and_root m).2) ∧
     (n ≠ (T_and_root m).2 → in_degree (T_and_root m).1 n = 1%nat)) ∧
  (∀ n, ¬ walk (T_and_root m).1 n n).
Proof.
  assert (nodes (T_and_root m).1 = list_to_set npdata.node_names) as Hnodes
    by (destruct m; by_decision).
  split; [exact Hnodes |].
  split; [destruct m; reflexivity |].
  split.
  - intros n. rewrite Hnodes, elem_of_list_to_set. intros Hn.
    each_node Hn; destruct m;
      (split; [split |]; intros Hn; vm_compute in Hn |- *;
       first [reflexivity | discriminate | exfalso; apply Hn; reflexivity]).
  - intros n Hw. apply walk_depth in Hw. lia.
Qed.

(** C7. In both variants the keys of [get_edge_to_blen()] are exactly
    the edges of the tree, and every branch length is non-negative. *)
Theorem edge_to_blen_keys_and_values (m : variant) :
  dom (edge_to_blen m) = edges (T_and_root m).1 ∧
  (∀ e x, edge_to_blen m !! e = Some x → nonneg x = true).
Proof.
  assert (dom (edge_to_blen m) = edges (T_and_root m).1) as Hdom
    by (destruct m; by_decision).
  split; [exact Hdom |].
  intros [u v] x Hx.
  assert ((u, v) ∈ edges (T_and_root m).1) as He
    by (rewrite <- Hdom; apply elem_of_dom; eauto).
  rewrite T_edges, !elem_of_cons, elem_of_nil in He.
  destruct He as [H | [H | [H | [H | [H | []]]]]]; injection H as -> ->;
    destruct m; vm_compute in Hx; injection Hx as <-; reflexivity.
Qed.

(** The branch lengths themselves. *)
Lemma edge_to_blen_values :
  (∀ e, e ∈ dom (edge_to_blen ModelA) → edge_to_blen ModelA !! e = Some (Float 0.5)) ∧
  edge_to_blen ModelB !! ("N1", "N0") = Some (Int 0) ∧
  edge_to_blen ModelB !! ("N1", "N2") = Some (Int 0) ∧
  edge_to_blen ModelB !! ("N1", "N5") = Some (Float 0.5) ∧
  edge_to_blen ModelB !! ("N2", "N3") = Some (Float 1) ∧
  edge_to_blen ModelB !! ("N2", "N4") = Some (Float 0.25).
Proof.
  split; [| by_evaluation].
  intros [u v] He.
  replace (dom (edge_to_blen ModelA)) with (edges (T_and_root ModelA).1) in He
    by (symmetry; by_decision).
  rewrite T_edges, !elem_of_cons, elem_of_nil in He.
  destruct He as [H | [H | [H | [H | [H | []]]]]]; injection H as -> ->;
    vm_compute; reflexivity.
Qed.

End Parameters.

(** ** Further properties of the data and of the parameters *)

Section Further.

Import npdata.

Lemma narrows_true (v v' : list bool) :
  narrows v v' = true →
  ∀ i : nat, v' !! i = Some true → v !! i = Some true.
Proof.
  revert v'. induction v as [|a v IH]; intros [|a' v'] Hn i Hi; simpl in *;
    try discriminate.
  apply andb_true_iff in Hn as [Hab Hrest].
  destruct i as [|i]; simpl in *.
  - injection Hi as ->. destruct a; [reflexivity | discriminate].
  - eapply IH; eassumption.
Qed.

Lemma T_nodes (m : variant) :
  nodes (T_and_root m).1 = list_to_set node_names.
Proof. destruct m; by_decision. Qed.

Lemma T_node_cases (m : variant) (n : string) :
  n ∈ nodes (T_and_root m).1 → n ∈ node_names.
Proof. rewrite T_nodes, elem_of_list_to_set. tauto. Qed.

Lemma leaf_cases (m : variant) (n : string) :
  is_leaf (T_and_root m).1 n ↔ n = "N0" ∨ n = "N3" ∨ n = "N4" ∨ n = "N5".
Proof.
  unfold is_leaf. split.
  - intros [Hn Hd]. apply T_node_cases in Hn.
    each_node Hn; destruct m; vm_compute in Hd; try discriminate; tauto.
  - intros [-> | [-> | [-> | ->]]];
      (split; [rewrite T_nodes, elem_of_list_to_set; unfold node_names;
               rewrite !elem_of_cons; tauto
              | destruct m; vm_compute; reflexivity]).
Qed.

Lemma internal_cases (m : variant) (n : string) :
  is_internal (T_and_root m).1 n ↔ n = "N1" ∨ n = "N2".
Proof.
  unfold is_internal. split.
  - intros [Hn Hd]. apply T_node_cases in Hn.
    each_node Hn; destruct m; vm_compute in Hd; try tauto;
      exfalso; apply Hd; reflexivity.
  - intros [-> | ->];
      (split; [rewrite T_nodes, elem_of_list_to_set; unfold node_names;
               rewrite !elem_of_cons; tauto
              | destruct m; vm_compute; discriminate]).
Qed.

Lemma in_node_names (n : string) :
  n = "N0" ∨ n = "N1" ∨ n = "N2" ∨ n = "N3" ∨ n = "N4" ∨ n = "N5" →
  n ∈ node_names.
Proof. unfold node_names. rewrite !elem_of_cons. tauto. Qed.

Ltac each_level H :=
  match type of H with
  | 0 ≤ ?L ≤ 3 =>
      assert (L = 0 ∨ L = 1 ∨ L = 2 ∨ L = 3) as [-> | [-> | [-> | ->]]] by lia
  | 1 ≤ ?L ≤ 3 =>
      assert (L = 1 ∨ L = 2 ∨ L = 3) as [-> | [-> | ->]] by lia
  | 0 ≤ ?L ≤ 2 =>
      assert (L = 0 ∨ L = 1 ∨ L = 2) as [-> | [-> | ->]] by lia
  end.

Ltac each_leaf H :=
  apply leaf_cases in H; destruct H as [-> | [-> | [-> | ->]]].

(** X1. Whatever [data_level] is bound to that is not a number equal to
    0, 1, 2 or 3 sends every call into the [else] branch. *)
Theorem get_data_invalid_data_level
    (globals : gmap string pyval) (dl level : pyval) :
  globals !! "data_level" = Some dl →
  (dl = PyNone ∨ (∃ s, dl = PyStr s) ∨ (∃ o, dl = PyObj o) ∨
   (∃ L, dl = PyInt L ∧ ¬ (0 ≤ L ≤ 3))) →
  get_data globals level = Raise (Exception "invalid data level").
Proof.
  intros Hdl Hbad. unfold get_data. rewrite Hdl.
  destruct Hbad as [-> | [[s ->] | [[o ->] | (L & -> & HL)]]];
    try reflexivity.
  apply level_data_invalid, HL.
Qed.

Lemma get_data_invalid_data_level_witness :
  get_data (<["data_level" := PyInt 4]> module_globals) (PyInt 0)
    = Raise (Exception "invalid data level").
Proof.
  apply (get_data_invalid_data_level _ (PyInt 4)).
  - apply lookup_insert_eq.
  - right. right. right. exists 4. split; [reflexivity | lia].
Defined.



(** X4. Allowed states only ever shrink: a state allowed at a level is
    allowed at every lower level, for any two levels and not only for
    consecutive ones. *)
Theorem allowed_at_lower_levels (L L' : Z) (node : string) :
  0 ≤ L → L ≤ L' → L' ≤ 3 → node ∈ node_names →
  (∀ i : nat,
     allowed_primary L' node i = Some true →
     allowed_primary L node i = Some true) ∧
  (∀ (cls : Z) (i : nat),
     cls ∈ tol_classes →
     allowed_tol L' cls node i = Some true →
     allowed_tol L cls node i = Some true).
Proof.
  intros H0 HLL H3 Hnode.
  assert (∃ v v', primary_at L node = Some v ∧
                  primary_at L' node = Some v' ∧ narrows v v' = true) as HP.
  { assert (L = 0 ∨ L = 1 ∨ L = 2 ∨ L = 3) as [-> | [-> | [-> | ->]]] by lia;
      assert (L' = 0 ∨ L' = 1 ∨ L' = 2 ∨ L' = 3) as [-> | [-> | [-> | ->]]] by lia;
      try (exfalso; lia);
      each_node Hnode; do 2 eexists; by_evaluation. }
  assert (∀ cls, cls ∈ tol_classes →
          ∃ v v', tol_at L cls node = Some v ∧
                  tol_at L' cls node = Some v' ∧ narrows v v' = true) as HT.
  { intros cls Hcls.
    assert (L = 0 ∨ L = 1 ∨ L = 2 ∨ L = 3) as [-> | [-> | [-> | ->]]] by lia;
      assert (L' = 0 ∨ L' = 1 ∨ L' = 2 ∨ L' = 3) as [-> | [-> | [-> | ->]]] by lia;
      try (exfalso; lia);
      each_node Hnode; each_class Hcls; do 2 eexists; by_evaluation. }
  split.
  - intros i. unfold allowed_primary.
    destruct HP as (v & v' & -> & -> & Hn). simpl.
    apply narrows_true, Hn.
  - intros cls i Hcls. unfold allowed_tol.
    destruct (HT cls Hcls) as (v & v' & -> & -> & Hn). simpl.
    apply narrows_true, Hn.
Qed.

Lemma allowed_at_lower_levels_witness :
  allowed_tol 3 1 "N0" 0 = Some true ∧ allowed_tol 1 1 "N0" 0 = Some true.
Proof.
  assert (allowed_tol 3 1 "N0" 0 = Some true) as Hon by (vm_compute; reflexivity).
  refine (conj Hon _).
  refine (proj2 (allowed_at_lower_levels 1 3 "N0" _ _ _ _) 1 0%nat _ Hon).
  - lia.
  - lia.
  - lia.
  - unfold node_names. apply list_elem_of_here.
  - unfold tol_classes. apply list_elem_of_further, list_elem_of_here.
Defined.

(** X5. Every level adds information: between a level and the next some
    tolerance state of some node stops being allowed. *)
Theorem each_level_excludes_more (L : Z) :
  0 ≤ L ≤ 2 →
  ∃ (cls : Z) (node : string) (i : nat),
    cls ∈ tol_classes ∧ node ∈ node_names ∧
    allowed_tol L cls node i = Some true ∧
    allowed_tol (L + 1) cls node i = Some false.
Proof.
  intros HL. each_level HL.
  - exists 0, "N0", 0%nat.
    split; [unfold tol_classes; rewrite !elem_of_cons; tauto |].
    split; [apply in_node_names; tauto | by_evaluation].
  - exists 1, "N0", 1%nat.
    split; [unfold tol_classes; rewrite !elem_of_cons; tauto |].
    split; [apply in_node_names; tauto | by_evaluation].
  - exists 0, "N3", 0%nat.
    split; [unfold tol_classes; rewrite !elem_of_cons; tauto |].
    split; [apply in_node_names; tauto | by_evaluation].
Qed.

Lemma each_level_excludes_more_witness :
  ∃ (cls : Z) (node : string) (i : nat),
    cls ∈ tol_classes ∧ node ∈ node_names ∧
    allowed_tol 2 cls node i = Some true ∧
    allowed_tol (2 + 1) cls node i = Some false.
Proof. apply (each_level_excludes_more 2). lia. Defined.

(** X6. Level zero has no data: at every node every primary state and
    every tolerance state of every class is allowed. *)
Theorem level_zero_allows_everything (node : string) :
  node ∈ node_names →
  primary_at 0 node = Some (replicate 6 true) ∧
  (∀ cls, cls ∈ tol_classes → tol_at 0 cls node = Some (replicate 2 true)).
Proof.
  intros Hnode. each_node Hnode;
    (split; [by_evaluation | intros cls Hcls; each_class Hcls; by_evaluation]).
Qed.

Lemma level_zero_allows_everything_witness :
  primary_at 0 "N4" = Some (replicate 6 true) ∧
  (∀ cls, cls ∈ tol_classes → tol_at 0 cls "N4" = Some (replicate 2 true)).
Proof.
  apply (level_zero_allows_everything "N4").
  apply in_node_names. tauto.
Defined.

(** X7. No level says anything about an internal node of the tree: at the
    nodes that have a child every primary and every tolerance state stays
    allowed. *)
Theorem internal_nodes_unconstrained (m : variant) (L : Z) (node : string) :
  0 ≤ L ≤ 3 → is_internal (T_and_root m).1 node →
  primary_at L node = Some (replicate 6 true) ∧
  (∀ cls, cls ∈ tol_classes → tol_at L cls node = Some (replicate 2 true)).
Proof.
  intros HL Hnode. apply internal_cases in Hnode.
  destruct Hnode as [-> | ->]; each_level HL;
    (split; [by_evaluation | intros cls Hcls; each_class Hcls; by_evaluation]).
Qed.

Lemma internal_nodes_unconstrained_witness :
  primary_at 3 "N2" = Some (replicate 6 true) ∧
  (∀ cls, cls ∈ tol_classes → tol_at 3 cls "N2" = Some (replicate 2 true)).
Proof.
  apply (internal_nodes_unconstrained ModelB 3 "N2").
  - lia.
  - apply internal_cases. tauto.
Defined.

(** X8. From level 1 on the alignment fixes the primary state of every
    leaf: exactly one primary state is allowed there. *)
Theorem leaves_have_one_primary_state (m : variant) (L : Z) (node : string) :
  1 ≤ L ≤ 3 → is_leaf (T_and_root m).1 node →
  ∃ s : nat,
    allowed_primary L node s = Some true ∧
    ∀ i : nat, allowed_primary L node i = Some true → i = s.
Proof.
  intros HL Hleaf. each_leaf Hleaf; each_level HL;
    [ exists 0%nat | exists 0%nat | exists 0%nat
    | exists 4%nat | exists 4%nat | exists 4%nat
    | exists 5%nat | exists 5%nat | exists 5%nat
    | exists 1%nat | exists 1%nat | exists 1%nat ];
    (split; [by_evaluation |];
     intros i Hi;
     do 6 (destruct i as [|i]; [vm_compute in Hi; congruence |]);
     vm_compute in Hi; discriminate).
Qed.

Lemma leaves_have_one_primary_state_witness :
  ∃ s : nat,
    allowed_primary 1 "N3" s = Some true ∧
    ∀ i : nat, allowed_primary 1 "N3" i = Some true → i = s.
Proof.
  apply (leaves_have_one_primary_state ModelA 1 "N3").
  - lia.
  - apply leaf_cases. tauto.
Defined.

(** X9. The residue observed at a leaf is never untolerated: from level 1
    on, the class of the one primary state allowed at a leaf has its off
    state excluded and its on state allowed there. *)
Theorem observed_residue_is_tolerated
    (m : variant) (L : Z) (node : string) (s : nat) (c : Z) :
  1 ≤ L ≤ 3 → is_leaf (T_and_root m).1 node →
  allowed_primary L node s = Some true →
  primary_to_tol m !! s = Some c →
  tol_at L c node = Some [false; true].
Proof.
  intros HL Hleaf Hs Hc.
  each_leaf Hleaf; each_level HL;
    do 6 (destruct s as [|s];
          [vm_compute in Hs; try discriminate;
           destruct m; vm_compute in Hc; injection Hc as <-; by_evaluation |]);
    vm_compute in Hs; discriminate.
Qed.

Lemma observed_residue_is_tolerated_witness :
  tol_at 2 2 "N4" = Some [false; true].
Proof.
  apply (observed_residue_is_tolerated ModelB 2 "N4" 5 2).
  - lia.
  - apply leaf_cases. tauto.
  - vm_compute. reflexivity.
  - vm_compute. reflexivity.
Defined.

(** X10. Level 3 has complete tolerance data at the leaves: for every
    leaf and every class exactly one of the two tolerance states is
    allowed. *)
Theorem level_three_fixes_leaf_tolerance (m : variant) (node : string) (cls : Z) :
  is_leaf (T_and_root m).1 node → cls ∈ tol_classes →
  tol_at 3 cls node = Some [false; true] ∨
  tol_at 3 cls node = Some [true; false].
Proof.
  intros Hleaf Hcls. each_leaf Hleaf; each_class Hcls;
    first [left; by_evaluation | right; by_evaluation].
Qed.

Lemma level_three_fixes_leaf_tolerance_witness :
  tol_at 3 1 "N0" = Some [false; true] ∨
  tol_at 3 1 "N0" = Some [true; false].
Proof.
  apply (level_three_fixes_leaf_tolerance ModelA "N0" 1).
  - apply leaf_cases. tauto.
  - unfold tol_classes. rewrite !elem_of_cons. tauto.
Defined.

(** X11. The evidence is never contradictory at a node: at every level
    and node some allowed primary state belongs to a class whose on state
    is allowed there. *)
Theorem some_state_is_tolerated (m : variant) (L : Z) (node : string) :
  0 ≤ L ≤ 3 → node ∈ node_names →
  ∃ (s : nat) (c : Z),
    allowed_primary L node s = Some true ∧
    primary_to_tol m !! s = Some c ∧
    allowed_tol L c node 1 = Some true.
Proof.
  intros HL Hnode.
  assert (existsb (tolerated_state m L node) (seq 0 6) = true) as Hex
    by (each_level HL; each_node Hnode; destruct m; vm_compute; reflexivity).
  apply existsb_exists in Hex as (s & _ & Hs).
  unfold tolerated_state in Hs.
  destruct (allowed_primary L node s) as [[|]|] eqn:Hp; try discriminate.
  destruct (primary_to_tol m !! s) as [c|] eqn:Hc; try discriminate.
  destruct (allowed_tol L c node 1) as [[|]|] eqn:Ht; try discriminate.
  exists s, c. auto.
Qed.

Lemma some_state_is_tolerated_witness :
  ∃ (s : nat) (c : Z),
    allowed_primary 3 "N5" s = Some true ∧
    primary_to_tol ModelA !! s = Some c ∧
    allowed_tol 3 c "N5" 1 = Some true.
Proof.
  apply (some_state_is_tolerated ModelA 3 "N5").
  - lia.
  - apply in_node_names. tauto.
Defined.

Lemma level_components (L : Z) :
  0 ≤ L ≤ 3 →
  ∃ primary_data tol_data,
    primary_of L = Some primary_data ∧ tol_of L = Some tol_data ∧
    dom primary_data = list_to_set node_names ∧
    dom tol_data = list_to_set tol_classes ∧
    ∀ cls, cls ∈ tol_classes →
      ∃ d, tol_data !! cls = Some d ∧ dom d = list_to_set node_names.
Proof.
  intros HL.
  destruct (level_data_defined L HL) as (p & t & Hdata & Hp & Ht & Hd).
  exists p, t. unfold primary_of, tol_of. rewrite Hdata. auto.
Qed.

(** X12. The evidence of every level is keyed by exactly the nodes of the
    tree, in [primary_data] and under every class of [tol_data]. *)
Theorem evidence_keys_are_tree_nodes (m : variant) (L : Z) :
  0 ≤ L ≤ 3 →
  ∃ primary_data tol_data,
    primary_of L = Some primary_data ∧ tol_of L = Some tol_data ∧
    dom primary_data = nodes (T_and_root m).1 ∧
    ∀ cls d, tol_data !! cls = Some d → dom d = nodes (T_and_root m).1.
Proof.
  intros HL.
  destruct (level_components L HL) as (p & t & Hp & Ht & Hdp & Hdt & Hd).
  exists p, t. rewrite T_nodes.
  split; [exact Hp |]. split; [exact Ht |]. split; [exact Hdp |].
  intros cls d Hcls.
  assert (cls ∈ tol_classes) as Hin.
  { apply (elem_of_list_to_set (C := gset Z)). rewrite <- Hdt.
    apply elem_of_dom. eauto. }
  destruct (Hd cls Hin) as (d' & Hd' & Hdom). congruence.
Qed.

Lemma evidence_keys_are_tree_nodes_witness :
  ∃ primary_data tol_data,
    primary_of 2 = Some primary_data ∧ tol_of 2 = Some tol_data ∧
    dom primary_data = nodes (T_and_root ModelA).1 ∧
    ∀ cls d, tol_data !! cls = Some d → dom d = nodes (T_and_root ModelA).1.
Proof. apply (evidence_keys_are_tree_nodes ModelA 2). lia. Defined.

(** X13. [get_primary_to_tol()] sends the six primary states onto the
    classes that key [tol_data]: a class has a primary state exactly when
    the evidence of the level has an entry for it. *)
Theorem primary_to_tol_classes_are_tol_data_keys (m : variant) (L : Z) :
  0 ≤ L ≤ 3 →
  length (primary_to_tol m) = 6%nat ∧
  ∃ tol_data,
    tol_of L = Some tol_data ∧
    ∀ c : Z, (∃ s : nat, primary_to_tol m !! s = Some c) ↔ c ∈ dom tol_data.
Proof.
  intros HL. split; [destruct m; reflexivity |].
  destruct (level_components L HL) as (p & t & _ & Ht & _ & Hdt & _).
  exists t. split; [exact Ht |].
  intros c. rewrite Hdt, elem_of_list_to_set. split.
  - intros [s Hs].
    do 6 (destruct s as [|s];
          [destruct m; vm_compute in Hs; injection Hs as <-;
           unfold tol_classes; rewrite !elem_of_cons; tauto |]).
    destruct m; vm_compute in Hs; discriminate.
  - intros Hc. each_class Hc;
      [exists 0%nat | exists 2%nat | exists 4%nat]; destruct m; reflexivity.
Qed.

Lemma primary_to_tol_classes_are_tol_data_keys_witness :
  length (primary_to_tol ModelB) = 6%nat ∧
  ∃ tol_data,
    tol_of 0 = Some tol_data ∧
    ∀ c : Z, (∃ s : nat, primary_to_tol ModelB !! s = Some c) ↔ c ∈ dom tol_data.
Proof. apply (primary_to_tol_classes_are_tol_data_keys ModelB 0). lia. Defined.

(** X14. The shapes agree: a primary vector of the evidence has one entry
    per row and per column of [get_Q_primary()] and per entry of
    [get_primary_to_tol()], and a tolerance vector has two entries, off
    and on. *)
Theorem evidence_shapes_match_model (m : variant) (L : Z) (node : string) :
  0 ≤ L ≤ 3 → node ∈ nodes (T_and_root m).1 →
  (∃ v, primary_at L node = Some v ∧
        length v = length (Q_primary m) ∧
        Forall (λ row, length row = length v) (Q_primary m) ∧
        length v = length (primary_to_tol m)) ∧
  (∀ cls, cls ∈ tol_classes →
     ∃ w, tol_at L cls node = Some w ∧ length w = 2%nat).
Proof.
  intros HL Hnode. apply T_node_cases in Hnode.
  destruct (data_shape L node HL Hnode) as [(v & Hv & Hlen) Htol].
  split; [| exact Htol].
  exists v. split; [exact Hv |]. rewrite Hlen.
  destruct (Q_primary_shape m) as [HQ Hrows].
  split; [symmetry; exact HQ |]. split; [exact Hrows |].
  destruct m; reflexivity.
Qed.

Lemma evidence_shapes_match_model_witness :
  (∃ v, primary_at 1 "N5" = Some v ∧
        length v = length (Q_primary ModelB) ∧
        Forall (λ row, length row = length v) (Q_primary ModelB) ∧
        length v = length (primary_to_tol ModelB)) ∧
  (∀ cls, cls ∈ tol_classes →
     ∃ w, tol_at 1 cls "N5" = Some w ∧ length w = 2%nat).
Proof.
  apply (evidence_shapes_match_model ModelB 1 "N5").
  - lia.
  - rewrite T_nodes, elem_of_list_to_set. apply in_node_names. tauto.
Defined.

Lemma entry_out_of_range (m : variant) (i j : nat) :
  (6 ≤ i ∨ 6 ≤ j)%nat → entry (Q_primary m) i j = None.
Proof.
  intros Hij. unfold entry.
  destruct (Q_primary_shape m) as [HQ Hrows].
  destruct (Q_primary m !! i) as [row|] eqn:Hrow; [| reflexivity]. simpl.
  assert (length row = 6%nat) as Hlen
    by (eapply Forall_lookup_1 in Hrows; eauto).
  assert (i < 6)%nat by (apply lookup_lt_Some in Hrow; lia).
  apply lookup_ge_None. lia.
Qed.

Ltac each_index i H :=
  assert (i = 0 ∨ i = 1 ∨ i = 2 ∨ i = 3 ∨ i = 4 ∨ i = 5)%nat
    as [-> | [-> | [-> | [-> | [-> | ->]]]]] by lia.

(** X15. The rate matrix of model A is symmetric: the entry at (i, j) is
    the entry at (j, i), inside and outside the matrix. *)
Theorem Q_primary_A_symmetric (i j : nat) :
  entry (Q_primary ModelA) i j = entry (Q_primary ModelA) j i.
Proof.
  destruct (decide (i < 6)%nat) as [Hi|Hi];
    [destruct (decide (j < 6)%nat) as [Hj|Hj] |].
  - each_index i Hi; each_index j Hj; vm_compute; reflexivity.
  - rewrite !entry_out_of_range by lia. reflexivity.
  - rewrite !entry_out_of_range by lia. reflexivity.
Qed.

(** X16. Model B has the transitions of model A except the one between
    states 4 and 5: a rate of B is positive exactly where the rate of A is
    and the pair is not 4, 5 in either order. *)
Theorem Q_primary_B_transitions (i j : nat) (x y : float) :
  entry (Q_primary ModelA) i j = Some x →
  entry (Q_primary ModelB) i j = Some y →
  positive y = true ↔
  positive x = true ∧ ¬ (i = 4%nat ∧ j = 5%nat ∨ i = 5%nat ∧ j = 4%nat).
Proof.
  intros Hx Hy.
  assert (i < 6 ∧ j < 6)%nat as [Hi Hj].
  { destruct (decide (i < 6)%nat); destruct (decide (j < 6)%nat);
      try (split; assumption);
      rewrite entry_out_of_range in Hx by lia; discriminate. }
  each_index i Hi; each_index j Hj;
    vm_compute in Hx; vm_compute in Hy;
    injection Hx as <-; injection Hy as <-;
    (split;
     [ intros Hp; vm_compute in Hp;
       first [discriminate | split; [reflexivity | lia]]
     | intros [Hp Hne]; vm_compute in Hp |- *;
       first [reflexivity | discriminate | exfalso; lia] ]).
Qed.

Lemma Q_primary_B_transitions_witness :
  positive 0%float = true ↔
  positive 1%float = true ∧ ¬ (4%nat = 4%nat ∧ 5%nat = 5%nat ∨ 4%nat = 5%nat ∧ 5%nat = 4%nat).
Proof.
  apply (Q_primary_B_transitions 4 5 1%float 0%float).
  - vm_compute. reflexivity.
  - vm_compute. reflexivity.
Defined.



(** X18. The tree spans its nodes: every node other than the root is
    reached from the root by a walk, and there is one edge less than there
    are nodes. *)
Theorem T_spans_from_root (m : variant) :
  (∀ n, n ∈ nodes (T_and_root m).1 → n ≠ (T_and_root m).2 →
     walk (T_and_root m).1 (T_and_root m).2 n) ∧
  S (size (edges (T_and_root m).1)) = size (nodes (T_and_root m).1).
Proof.
  assert (∀ u v,
    (u, v) ∈ [("N1", "N0"); ("N1", "N2"); ("N1", "N5"); ("N2", "N3"); ("N2", "N4")] →
    (u, v) ∈ edges (T_and_root m).1) as Hedge
    by (intros u v; apply T_edges).
  assert ((T_and_root m).2 = "N1") as -> by (destruct m; reflexivity).
  split.
  - intros n Hn Hroot. apply T_node_cases in Hn. each_node Hn.
    + apply walk_edge, Hedge. rewrite !elem_of_cons. tauto.
    + congruence.
    + apply walk_edge, Hedge. rewrite !elem_of_cons. tauto.
    + apply walk_step with "N2".
      * apply Hedge. rewrite !elem_of_cons. tauto.
      * apply walk_edge, Hedge. rewrite !elem_of_cons. tauto.
    + apply walk_step with "N2".
      * apply Hedge. rewrite !elem_of_cons. tauto.
      * apply walk_edge, Hedge. rewrite !elem_of_cons. tauto.
    + apply walk_edge, Hedge. rewrite !elem_of_cons. tauto.
  - destruct m; vm_compute; reflexivity.
Qed.

End Further.
